(** * Mod synchronizer ([scripts/download_mods.py])

    A shallow embedding of the single entry point [main] of the script and
    the properties of its four stages: loading the manifest, building the
    mapping of desired mods, pruning the mods folder and fetching what is
    missing.

    Modelling conventions.
    - Python values that [json.load] can return are the type [json]
      (floating-point numbers are left out).  A [JDict] is the loaded
      dictionary, in insertion order, hence with pairwise distinct keys.
    - Strings are byte strings (UTF-8).  [lower] acts on the ASCII range,
      which is all that the suffix [".jar"] can observe; [strip] knows the
      white space of Unicode by its encoding.
    - The mods folder is a finite map from entry names to contents, or is
      absent; names are plain directory entries of a case-sensitive file
      system.
    - Everything the script cannot control is a field of [env]: whether a
      removal or the opening of a file fails, what the remote answers, and
      the interpreter's [repr] of a string.
    - An uncaught exception ends the run: it is the result [Raise] of the
      state-and-exception monad [M], next to the state reached. *)

From stdpp Require Import gmap strings list fin_maps pretty.
From Stdlib Require Import ZArith Ascii String.
From Stdlib.Strings Require Import Byte.

Set Warnings "-register-all".

Open Scope string_scope.
Open Scope Z_scope.

(** ** Python values *)

Inductive json : Type :=
| JNull
| JBool (b : bool)
| JInt (n : Z)
| JStr (s : string)
| JList (l : list json)
| JDict (kv : list (string * json)).

(** [bool(v)]: the truth value Python's [or] and [not] test. *)
Definition py_truthy (v : json) : bool :=
  match v with
  | JNull => false
  | JBool b => b
  | JInt n => negb (n =? 0)
  | JStr s => negb (String.eqb s "")
  | JList l => match l with [] => false | _ => true end
  | JDict kv => match kv with [] => false | _ => true end
  end.

(** [a or b] returns [a] itself when it is truthy and [b] otherwise. *)
Definition py_or (a b : json) : json := if py_truthy a then a else b.

(** [d.get(k)] on a dictionary: [None] when the key is missing. *)
Fixpoint py_get (kv : list (string * json)) (k : string) : json :=
  match kv with
  | [] => JNull
  | (k', v) :: rest => if String.eqb k' k then v else py_get rest k
  end.

(** [k in d] on a dictionary. *)
Fixpoint py_has_key (kv : list (string * json)) (k : string) : bool :=
  match kv with
  | [] => false
  | (k', _) :: rest => String.eqb k' k || py_has_key rest k
  end.

(** Numbers as Python compares them: [True == 1] and [False == 0]. *)
Definition as_num (v : json) : option Z :=
  match v with
  | JBool b => Some (Z.b2z b)
  | JInt n => Some n
  | _ => None
  end.

(** [a == b] on hashable values (the only ones used as dictionary keys). *)
Definition py_eqb (a b : json) : bool :=
  match a, b with
  | JNull, JNull => true
  | JStr s, JStr t => String.eqb s t
  | _, _ =>
      match as_num a, as_num b with
      | Some x, Some y => x =? y
      | _, _ => false
      end
  end.

(** Lists and dictionaries are unhashable: using one as a key raises. *)
Definition py_hashable (v : json) : bool :=
  match v with
  | JList _ | JDict _ => false
  | _ => true
  end.

(** ** Strings *)

Definition ascii_lower (c : ascii) : ascii :=
  let n := nat_of_ascii c in
  if (65 <=? n)%nat && (n <=? 90)%nat then ascii_of_nat (n + 32) else c.

Fixpoint lower (s : string) : string :=
  match s with
  | EmptyString => EmptyString
  | String c rest => String (ascii_lower c) (lower rest)
  end.

Definition endswith (s suffix : string) : bool :=
  let n := String.length s in
  let m := String.length suffix in
  (m <=? n)%nat && String.eqb (substring (n - m) m s) suffix.

Definition startswith (s pre : string) : bool := String.prefix pre s.

(** White space as [str.strip] sees it: the ASCII characters ... *)
Definition is_space (c : ascii) : bool :=
  let n := nat_of_ascii c in
  ((9 <=? n)%nat && (n <=? 13)%nat) || ((28 <=? n)%nat && (n <=? 32)%nat).

(** ... U+0085 and U+00A0, two bytes each ... *)
Definition is_space2 (a b : ascii) : bool :=
  let x := nat_of_ascii a in
  let y := nat_of_ascii b in
  (x =? 194)%nat && ((y =? 133)%nat || (y =? 160)%nat).

(** ... and U+1680, U+2000 to U+200A, U+2028, U+2029, U+202F, U+205F and
    U+3000, three bytes each. *)
Definition is_space3 (a b c : ascii) : bool :=
  let x := nat_of_ascii a in
  let y := nat_of_ascii b in
  let z := nat_of_ascii c in
  ((x =? 225)%nat && (y =? 154)%nat && (z =? 128)%nat) ||
  ((x =? 226)%nat && (y =? 128)%nat &&
   (((128 <=? z)%nat && (z <=? 138)%nat) ||
    (z =? 168)%nat || (z =? 169)%nat || (z =? 175)%nat)) ||
  ((x =? 226)%nat && (y =? 129)%nat && (z =? 159)%nat) ||
  ((x =? 227)%nat && (y =? 128)%nat && (z =? 128)%nat).

Fixpoint lstrip (s : string) : string :=
  match s with
  | EmptyString => EmptyString
  | String a r1 =>
      if is_space a then lstrip r1
      else
        match r1 with
        | EmptyString => s
        | String b r2 =>
            if is_space2 a b then lstrip r2
            else
              match r2 with
              | EmptyString => s
              | String c r3 => if is_space3 a b c then lstrip r3 else s
              end
        end
  end.

(** What is left of [s] once its trailing white space is cut: nothing when
    [s] is white space throughout. *)
Fixpoint rstrip (s : string) : string :=
  match s with
  | EmptyString => EmptyString
  | String a rest =>
      if String.eqb (lstrip s) "" then "" else String a (rstrip rest)
  end.

Definition strip (s : string) : string := rstrip (lstrip s).

Fixpoint join (sep : string) (l : list string) : string :=
  match l with
  | [] => ""
  | [x] => x
  | x :: rest => x ++ sep ++ join sep rest
  end.

(** [substr in s], used when the manifest is itself a string. *)
Fixpoint str_contains (s sub : string) : bool :=
  String.prefix sub s ||
  match s with
  | EmptyString => false
  | String _ rest => str_contains rest sub
  end.

(** The one-character strings a [for] loop over a string yields. *)
Fixpoint chars (s : string) : list string :=
  match s with
  | EmptyString => []
  | String c rest => String c EmptyString :: chars rest
  end.

(** ** Formatting *)

Section Format.
(** [repr] of a string is the interpreter's; it only shows up inside the
    text of a list or of a dictionary. *)
Variable repr_str : string -> string.

Fixpoint py_repr (v : json) : string :=
  match v with
  | JNull => "None"
  | JBool true => "True"
  | JBool false => "False"
  | JInt n => pretty n
  | JStr s => repr_str s
  | JList l => "[" ++ join ", " (map py_repr l) ++ "]"
  | JDict kv =>
      "{" ++ join ", "
               (map (fun p => match p with
                              | (k, x) => repr_str k ++ ": " ++ py_repr x
                              end) kv) ++ "}"
  end.

(** [str(v)], which is what an f-string inserts. *)
Definition py_str (v : json) : string :=
  match v with
  | JStr s => s
  | _ => py_repr v
  end.
End Format.

(** ** The environment and the state of a run *)

Inductive http_result : Type :=
| HttpExc
| HttpResp (status_code : Z) (text : string).

(** A streamed response: the chunks [iter_content] yields and whether the
    connection breaks after the last of them. *)
Inductive stream_result : Type :=
| StreamExc
| StreamResp (status_code : Z) (chunks : list (list byte)) (broken : bool).

Inductive request : Type :=
| Get (url : string)
| GetStream (url : string).

(** The remote answers a request as it pleases, knowing the requests made
    so far. *)
Record env : Type := mkEnv {
  repr_str : string -> string;
  remove_fails : string -> bool;
  open_fails : string -> bool;
  http_get : list request -> string -> http_result;
  http_stream : list request -> string -> stream_result
}.

(** What [json.load] on the opened manifest gives: any exception of the
    [try] block, or the parsed value. *)
Inductive load_result : Type :=
| LoadFailed
| Loaded (manifest : json).

(** One constructor for each [print] of the script. *)
Inductive msg : Type :=
| UsingManifest
| ModsDirectory
| ErrorLoadingManifest
| ErrorNoFilesKey
| SkippingEntry (entry : json)
| FoundEntries (n : nat)
| RemovingOutdated (name : string)
| ErrorRemoving (name : string)
| AlreadyExists (name : string)
| Downloading (name : string) (project_id file_id : json)
| ErrorStatus (status_code : Z) (name : string)
| ErrorInvalidUrl (name url : string)
| Downloaded (name : string)
| ErrorDownloading (name : string)
| Complete.

Record state : Type := mkState {
  mods_dir : option (gmap string (list byte));
  out : list msg;
  reqs : list request
}.

Inductive exn : Type :=
| TypeError
| AttributeError
| KeyError
| OSError
| RequestException
| HTTPError.

Inductive res (A : Type) : Type :=
| Val (a : A)
| Raise (e : exn).
Arguments Val {A} a.
Arguments Raise {A} e.

(** Which [return] of [main] was reached. *)
Inductive exit : Type :=
| EarlyReturn
| RanToEnd.

(** ** The monad *)

Definition M (A : Type) : Type := state -> res A * state.

Definition ret {A : Type} (a : A) : M A := fun st => (Val a, st).

Definition raise {A : Type} (e : exn) : M A := fun st => (Raise e, st).

Definition bind {A B : Type} (m : M A) (k : A -> M B) : M B :=
  fun st =>
    match m st with
    | (Val a, st') => k a st'
    | (Raise e, st') => (Raise e, st')
    end.

(** [try: body except Exception: handler]; the handler starts from the
    state the body had reached. *)
Definition try_except (body handler : M unit) : M unit :=
  fun st =>
    match body st with
    | (Val a, st') => (Val a, st')
    | (Raise _, st') => handler st'
    end.

Notation "'let*' x ':=' m 'in' k" := (bind m (fun x => k))
  (at level 10, x name, m at level 100, k at level 200).
Notation "m '>>' k" := (bind m (fun _ => k))
  (at level 100, k at level 200, right associativity).

(** ** Primitive operations *)

Definition print (m : msg) : M unit :=
  fun st => (Val tt, mkState (mods_dir st) (out st ++ [m])%list (reqs st)).

Definition set_dir (d : gmap string (list byte)) (st : state) : state :=
  mkState (Some d) (out st) (reqs st).

(** [os.makedirs(mods_dir, exist_ok=True)] *)
Definition makedirs : M unit :=
  fun st => (Val tt, set_dir (default ∅ (mods_dir st)) st).

(** [os.listdir(mods_dir)] *)
Definition listdir : M (list string) :=
  fun st =>
    match mods_dir st with
    | Some d => (Val (elements (dom d)), st)
    | None => (Raise OSError, st)
    end.

(** [os.path.exists(os.path.join(mods_dir, name))] *)
Definition path_exists (name : string) : M bool :=
  fun st =>
    match mods_dir st with
    | Some d => (Val (match d !! name with Some _ => true | None => false end), st)
    | None => (Val false, st)
    end.

(** [os.remove(os.path.join(mods_dir, name))] *)
Definition os_remove (E : env) (name : string) : M unit :=
  fun st =>
    match mods_dir st with
    | Some d =>
        if remove_fails E name then (Raise OSError, st)
        else match d !! name with
             | Some _ => (Val tt, set_dir (delete name d) st)
             | None => (Raise OSError, st)
             end
    | None => (Raise OSError, st)
    end.

(** [open(os.path.join(mods_dir, name), "wb")]: creates or truncates. *)
Definition open_wb (E : env) (name : string) : M unit :=
  fun st =>
    match mods_dir st with
    | Some d =>
        if open_fails E name then (Raise OSError, st)
        else (Val tt, set_dir (<[name := []]> d) st)
    | None => (Raise OSError, st)
    end.

(** [mod_file.write(chunk)] on the file opened under [name]. *)
Definition write (name : string) (chunk : list byte) : M unit :=
  fun st =>
    match mods_dir st with
    | Some d => (Val tt, set_dir (alter (fun c => (c ++ chunk)%list) name d) st)
    | None => (Raise OSError, st)
    end.

Definition log_request (r : request) (st : state) : state :=
  mkState (mods_dir st) (out st) (reqs st ++ [r])%list.

(** [requests.get(url, timeout=15)] *)
Definition requests_get (E : env) (url : string) : M (Z * string) :=
  fun st =>
    match http_get E (reqs st) url with
    | HttpExc => (Raise RequestException, log_request (Get url) st)
    | HttpResp code text => (Val (code, text), log_request (Get url) st)
    end.

(** [requests.get(url, stream=True, timeout=60)] *)
Definition requests_get_stream (E : env) (url : string)
  : M (Z * (list (list byte) * bool)) :=
  fun st =>
    match http_stream E (reqs st) url with
    | StreamExc => (Raise RequestException, log_request (GetStream url) st)
    | StreamResp code chunks broken =>
        (Val (code, (chunks, broken)), log_request (GetStream url) st)
    end.

(** [response.raise_for_status()] *)
Definition raise_for_status (code : Z) : M unit :=
  if (400 <=? code) && (code <? 600) then raise HTTPError else ret tt.

(** ** Loading: the membership test, the subscript and the iteration *)

(** ["files" in manifest] *)
Definition py_contains (v : json) (k : string) : M bool :=
  match v with
  | JDict kv => ret (py_has_key kv k)
  | JList l => ret (existsb (fun x => py_eqb x (JStr k)) l)
  | JStr s => ret (str_contains s k)
  | _ => raise TypeError
  end.

(** [manifest["files"]] *)
Definition py_getitem (v : json) (k : string) : M json :=
  match v with
  | JDict kv => if py_has_key kv k then ret (py_get kv k) else raise KeyError
  | _ => raise TypeError
  end.

(** What [for mod in v] goes through. *)
Definition py_iter (v : json) : M (list json) :=
  match v with
  | JList l => ret l
  | JDict kv => ret (map (fun p => JStr (fst p)) kv)
  | JStr s => ret (map JStr (chars s))
  | _ => raise TypeError
  end.

(** ** Building the mapping of desired mods *)

(** [mods_in_manifest]: a Python dictionary keeps insertion order, and an
    assignment to a key already there replaces the value in place. *)
Definition dict : Type := list (json * (json * json)).

Fixpoint dict_set (k : json) (v : json * json) (d : dict) : dict :=
  match d with
  | [] => [(k, v)]
  | (k', v') :: rest =>
      if py_eqb k' k then (k', v) :: rest else (k', v') :: dict_set k v rest
  end.

Fixpoint dict_get (k : json) (d : dict) : option (json * json) :=
  match d with
  | [] => None
  | (k', v') :: rest => if py_eqb k' k then Some v' else dict_get k rest
  end.

(** [k in d] *)
Definition dict_mem (k : json) (d : dict) : bool :=
  match dict_get k d with Some _ => true | None => false end.

Definition project_id_of (kv : list (string * json)) : json :=
  py_or (py_get kv "projectID") (py_get kv "projectId").

Definition file_id_of (kv : list (string * json)) : json :=
  py_or (py_get kv "fileID") (py_get kv "fileId").

Definition file_name_of (E : env) (kv : list (string * json)) : json :=
  py_or (py_get kv "fileName")
        (JStr (py_str (repr_str E) (project_id_of kv) ++ "-" ++
               py_str (repr_str E) (file_id_of kv) ++ ".jar")).

(** The body of the first loop.  [mod.get] needs a dictionary, and a key
    of [mods_in_manifest] has to be hashable. *)
Definition add_mod (E : env) (entry : json) (mods_in_manifest : dict) : M dict :=
  match entry with
  | JDict kv =>
      let project_id := project_id_of kv in
      let file_id := file_id_of kv in
      let file_name := file_name_of E kv in
      if negb (py_truthy project_id) || negb (py_truthy file_id) then
        print (SkippingEntry entry) >> ret mods_in_manifest
      else if py_hashable file_name then
        ret (dict_set file_name (project_id, file_id) mods_in_manifest)
      else raise TypeError
  | _ => raise AttributeError
  end.

Fixpoint build (E : env) (entries : list json) (mods_in_manifest : dict) : M dict :=
  match entries with
  | [] => ret mods_in_manifest
  | entry :: rest =>
      let* mods_in_manifest' := add_mod E entry mods_in_manifest in
      build E rest mods_in_manifest'
  end.

(** ** Pruning *)

(** [f.lower().endswith(".jar")] *)
Definition is_mod_file (f : string) : bool := endswith (lower f) ".jar".

(** [current_mod_files] is a Python set: it is gone through in an order of
    its own, here the order of [elements]. *)
Definition current_mod_files (names : list string) : list string :=
  List.filter is_mod_file names.

Definition prune_one (E : env) (mods_in_manifest : dict) (mod_file : string) : M unit :=
  if negb (dict_mem (JStr mod_file) mods_in_manifest) then
    try_except
      (print (RemovingOutdated mod_file) >> os_remove E mod_file)
      (print (ErrorRemoving mod_file))
  else ret tt.

Fixpoint prune (E : env) (mods_in_manifest : dict) (mod_files : list string) : M unit :=
  match mod_files with
  | [] => ret tt
  | mod_file :: rest =>
      prune_one E mods_in_manifest mod_file >> prune E mods_in_manifest rest
  end.

(** ** Fetching *)

Definition nonempty (chunk : list byte) : bool :=
  match chunk with [] => false | _ => true end.

(** [for chunk in ...iter_content(chunk_size=8192): if chunk: write(chunk)] *)
Fixpoint write_chunks (name : string) (chunks : list (list byte)) : M unit :=
  match chunks with
  | [] => ret tt
  | chunk :: rest =>
      (if nonempty chunk then write name chunk else ret tt) >>
      write_chunks name rest
  end.

Definition api_url (E : env) (project_id file_id : json) : string :=
  "https://addons-ecs.forgesvc.net/api/v2/addon/" ++
  py_str (repr_str E) project_id ++ "/file/" ++
  py_str (repr_str E) file_id ++ "/download-url".

(** The [try] block of the second loop; a [continue] inside it leaves the
    block with nothing more done. *)
Definition download_body (E : env) (file_name : string) (project_id file_id : json)
  : M unit :=
  let* response := requests_get E (api_url E project_id file_id) in
  if negb (fst response =? 200) then
    print (ErrorStatus (fst response) file_name)
  else
    let download_url := strip (snd response) in
    if negb (startswith download_url "http") then
      print (ErrorInvalidUrl file_name download_url)
    else
      let* mod_response := requests_get_stream E download_url in
      raise_for_status (fst mod_response) >>
      open_wb E file_name >>
      write_chunks file_name (fst (snd mod_response)) >>
      (if snd (snd mod_response) then raise RequestException else ret tt) >>
      print (Downloaded file_name).

Definition download (E : env) (file_name : string) (project_id file_id : json)
  : M unit :=
  try_except (download_body E file_name project_id file_id)
             (print (ErrorDownloading file_name)).

(** The body of the second loop.  [os.path.join] needs a string. *)
Definition fetch_one (E : env) (item : json * (json * json)) : M unit :=
  match fst item with
  | JStr file_name =>
      let* present := path_exists file_name in
      if present then print (AlreadyExists file_name)
      else
        print (Downloading file_name (fst (snd item)) (snd (snd item))) >>
        download E file_name (fst (snd item)) (snd (snd item))
  | _ => raise TypeError
  end.

Fixpoint fetch_all (E : env) (items : dict) : M unit :=
  match items with
  | [] => ret tt
  | item :: rest => fetch_one E item >> fetch_all E rest
  end.

(** ** The run *)

Definition sync (E : env) (mods_in_manifest : dict) : M unit :=
  let* names := listdir in
  prune E mods_in_manifest (current_mod_files names) >>
  fetch_all E mods_in_manifest.

Definition main (E : env) (load : load_result) : M exit :=
  print UsingManifest >>
  print ModsDirectory >>
  makedirs >>
  match load with
  | LoadFailed => print ErrorLoadingManifest >> ret EarlyReturn
  | Loaded manifest =>
      let* has_files := py_contains manifest "files" in
      if negb has_files then print ErrorNoFilesKey >> ret EarlyReturn
      else
        let* files := py_getitem manifest "files" in
        let* entries := py_iter files in
        let* mods_in_manifest := build E entries [] in
        print (FoundEntries (List.length mods_in_manifest)) >>
        sync E mods_in_manifest >>
        print Complete >>
        ret RanToEnd
  end.

(** ** Notions the properties are stated with *)

(** The contents of the mods folder, empty when the folder is absent. *)
Definition dir_of (st : state) : gmap string (list byte) :=
  default ∅ (mods_dir st).

(** The state once the three statements that open [main] have run. *)
Definition started (st : state) : state :=
  mkState (Some (dir_of st)) (out st ++ [UsingManifest; ModsDirectory])%list (reqs st).

(** A computation that never makes the mods folder disappear. *)
Definition keeps_dir {A : Type} (m : M A) : Prop :=
  forall st, is_Some (mods_dir st) -> is_Some (mods_dir (snd (m st))).

(** An entry has an identifier when one of the two spellings of its key
    carries a value that counts. *)
Definition has_identifier (kv : list (string * json)) (k1 k2 : string) : bool :=
  py_truthy (py_get kv k1) || py_truthy (py_get kv k2).

Definition well_formed (entry : json) : bool :=
  match entry with
  | JDict kv =>
      has_identifier kv "projectID" "projectId" &&
      has_identifier kv "fileID" "fileId"
  | _ => false
  end.

Definition is_dict (v : json) : bool :=
  match v with JDict _ => true | _ => false end.

(** The file name an entry resolves to and the pair it stands for. *)
Definition resolved_name (E : env) (entry : json) : json :=
  match entry with
  | JDict kv => file_name_of E kv
  | _ => JNull
  end.

Definition resolved_ids (entry : json) : json * json :=
  match entry with
  | JDict kv => (project_id_of kv, file_id_of kv)
  | _ => (JNull, JNull)
  end.

(** No two of the keys are equal for Python. *)
Fixpoint distinct_keys (ks : list json) : bool :=
  match ks with
  | [] => true
  | k :: rest => forallb (fun k' => negb (py_eqb k k')) rest && distinct_keys rest
  end.

(** The messages that report a failed download of [name]. *)
Definition reports_failure (name : string) (m : msg) : bool :=
  match m with
  | ErrorStatus _ n => String.eqb n name
  | ErrorInvalidUrl n _ => String.eqb n name
  | ErrorDownloading n => String.eqb n name
  | _ => false
  end.

(** The download URL the resolution call yields, when it yields one that
    is acceptable: status 200 and a body that starts with ["http"] once
    stripped. *)
Definition resolved_url (E : env) (st : state) (project_id file_id : json)
  : option string :=
  match http_get E (reqs st) (api_url E project_id file_id) with
  | HttpResp code text =>
      if (code =? 200) && startswith (strip text) "http"
      then Some (strip text) else None
  | HttpExc => None
  end.

(** What is on disk under [name] once all of [chunks] have been written to
    a file that held [c]. *)
Definition written (c : list byte) (chunks : list (list byte)) : list byte :=
  (c ++ List.concat chunks)%list.

(** ** Sample environments and runs *)

Definition quiet_env : env :=
  mkEnv (fun s => s) (fun _ => false) (fun _ => false)
        (fun _ _ => HttpExc) (fun _ _ => StreamExc).


(** A remote that resolves every mod and serves two chunks; the transfer
    breaks after them when [broken] is set. *)
Definition serving_env (broken : bool) : env :=
  mkEnv (fun s => s) (fun _ => false) (fun _ => false)
        (fun _ _ => HttpResp 200 " http://cdn.example/mod.jar ")
        (fun _ _ => StreamResp 200 [[x50; x4b]; []; [x03]] broken).

(** A remote whose resolution call answers with status 404. *)
Definition missing_env : env :=
  mkEnv (fun s => s) (fun _ => false) (fun _ => false)
        (fun _ _ => HttpResp 404 "not found") (fun _ _ => StreamExc).

Definition fresh : state := mkState None [] [].

Definition sample_entry : list (string * json) :=
  [("projectID", JInt 100); ("fileID", JInt 200)].

Definition sample_manifest : json :=
  JDict [("files",
          JList [JDict sample_entry;
                 JDict [("projectId", JInt 238222); ("fileId", JInt 4712);
                        ("fileName", JStr "jei.jar")]])].

(** A folder with an outdated mod, a wanted one and a text file. *)
Definition sample_dir : gmap string (list byte) :=
  list_to_map [("old.JAR", [x01]); ("jei.jar", [x02]); ("notes.txt", [x03])].

Definition sample_state : state := mkState (Some sample_dir) [] [].

Definition sample_mods : dict :=
  [(JStr "100-200.jar", (JInt 100, JInt 200));
   (JStr "jei.jar", (JInt 238222, JInt 4712))].

(** The statuses [raise_for_status] raises on. *)
Definition http_error (code : Z) : bool := (400 <=? code) && (code <? 600).

(** ** Notions for the further properties *)

Definition is_str (v : json) : bool :=
  match v with JStr _ => true | _ => false end.


(** Whether the file an item of the mapping names is in the folder. *)
Definition on_disk (d : gmap string (list byte)) (item : json * (json * json)) : bool :=
  match fst item with
  | JStr f => match d !! f with Some _ => true | None => false end
  | _ => false
  end.



(** The message for an item that is skipped because its file exists. *)
Definition already_exists (item : json * (json * json)) : msg :=
  match fst item with
  | JStr f => AlreadyExists f
  | _ => Complete
  end.

(** A folder that holds what [sample_mods] asks for but one file. *)
Definition synced_dir : gmap string (list byte) :=
  list_to_map [("jei.jar", [x02]); ("100-200.jar", [x50; x4b; x03]);
               ("notes.txt", [x03]); ("servers.dat", [])].

Definition synced_state : state := mkState (Some synced_dir) [] [].

(** A remote that resolves every mod and answers the download with
    [code], serving one chunk. *)
Definition answering_env (code : Z) (unwritable : bool) : env :=
  mkEnv (fun s => s) (fun _ => false) (fun _ => unwritable)
        (fun _ _ => HttpResp 200 "https://cdn.example/mod.jar")
        (fun _ _ => StreamResp code [[x50; x4b]] false).

(** The exception the body of the first loop raises on an entry, if any:
    [mod.get] on what is no dictionary, or a name that cannot be a key. *)
Definition raised_by_entry (E : env) (entry : json) : option exn :=
  match entry with
  | JDict kv =>
      if well_formed entry && negb (py_hashable (file_name_of E kv))
      then Some TypeError else None
  | _ => Some AttributeError
  end.

Definition no_exn (o : option exn) : bool :=
  match o with None => true | Some _ => false end.

(** * Properties *)

(** ** The monad and the primitives *)


Lemma keeps_dir_ret {A : Type} (a : A) : keeps_dir (ret a).
Proof. by intros st H. Qed.

Lemma keeps_dir_raise {A : Type} (e : exn) : keeps_dir (@raise A e).
Proof. by intros st H. Qed.

Lemma keeps_dir_bind {A B : Type} (m : M A) (k : A -> M B) :
  keeps_dir m -> (forall a, keeps_dir (k a)) -> keeps_dir (bind m k).
Proof.
  intros Hm Hk st H. unfold bind.
  specialize (Hm st H). destruct (m st) as [[a|e] st']; simpl in *.
  - by apply Hk.
  - done.
Qed.

Lemma keeps_dir_try (body handler : M unit) :
  keeps_dir body -> keeps_dir handler -> keeps_dir (try_except body handler).
Proof.
  intros Hb Hh st H. unfold try_except.
  specialize (Hb st H). destruct (body st) as [[a|e] st']; simpl in *.
  - done.
  - by apply Hh.
Qed.

Lemma keeps_dir_print m : keeps_dir (print m).
Proof. by intros st H. Qed.

Lemma keeps_dir_makedirs : keeps_dir makedirs.
Proof. intros st _. simpl. eauto. Qed.

Lemma keeps_dir_listdir : keeps_dir listdir.
Proof. intros st H. unfold listdir. by destruct (mods_dir st) eqn:Hd; simpl; rewrite ?Hd. Qed.

Lemma keeps_dir_path_exists name : keeps_dir (path_exists name).
Proof. intros st H. unfold path_exists. by destruct (mods_dir st) eqn:Hd; simpl; rewrite ?Hd. Qed.

Lemma keeps_dir_os_remove E name : keeps_dir (os_remove E name).
Proof.
  intros st H. unfold os_remove.
  destruct (mods_dir st) as [d|] eqn:Hd; [|done].
  destruct (remove_fails E name); simpl; [by rewrite Hd|].
  destruct (d !! name); simpl; [eauto | by rewrite Hd].
Qed.

Lemma keeps_dir_open_wb E name : keeps_dir (open_wb E name).
Proof.
  intros st H. unfold open_wb.
  destruct (mods_dir st) as [d|] eqn:Hd; [|done].
  destruct (open_fails E name); simpl; [by rewrite Hd | eauto].
Qed.

Lemma keeps_dir_write name chunk : keeps_dir (write name chunk).
Proof.
  intros st H. unfold write.
  destruct (mods_dir st) as [d|] eqn:Hd; simpl; [eauto | done].
Qed.

Lemma keeps_dir_requests_get E url : keeps_dir (requests_get E url).
Proof. intros st H. unfold requests_get. by destruct (http_get E _ _); simpl. Qed.

Lemma keeps_dir_requests_get_stream E url : keeps_dir (requests_get_stream E url).
Proof. intros st H. unfold requests_get_stream. by destruct (http_stream E _ _); simpl. Qed.

Lemma keeps_dir_raise_for_status code : keeps_dir (raise_for_status code).
Proof. unfold raise_for_status. destruct (_ && _); auto using keeps_dir_ret, keeps_dir_raise. Qed.

Lemma keeps_dir_py_contains v k : keeps_dir (py_contains v k).
Proof. destruct v; simpl; auto using keeps_dir_ret, keeps_dir_raise. Qed.

Lemma keeps_dir_py_getitem v k : keeps_dir (py_getitem v k).
Proof.
  destruct v; simpl; auto using keeps_dir_raise.
  destruct (py_has_key kv k); auto using keeps_dir_ret, keeps_dir_raise.
Qed.

Lemma keeps_dir_py_iter v : keeps_dir (py_iter v).
Proof. destruct v; simpl; auto using keeps_dir_ret, keeps_dir_raise. Qed.

Create HintDb keeps discriminated.
#[local] Hint Resolve keeps_dir_ret keeps_dir_raise keeps_dir_print
  keeps_dir_makedirs keeps_dir_listdir keeps_dir_path_exists
  keeps_dir_os_remove keeps_dir_open_wb keeps_dir_write
  keeps_dir_requests_get keeps_dir_requests_get_stream
  keeps_dir_raise_for_status keeps_dir_py_contains keeps_dir_py_getitem
  keeps_dir_py_iter : keeps.

(** Splits a computation along its binds, its [try] blocks and its tests. *)
Ltac keeps_step :=
  match goal with
  | |- keeps_dir (bind _ _) => apply keeps_dir_bind; [|intros ?]
  | |- keeps_dir (try_except _ _) => apply keeps_dir_try
  | |- keeps_dir (if ?b then _ else _) => destruct b
  | |- keeps_dir _ => solve [auto with keeps]
  end.

Lemma keeps_dir_add_mod E entry mods : keeps_dir (add_mod E entry mods).
Proof. destruct entry; simpl; repeat keeps_step. Qed.

Lemma keeps_dir_build E entries : forall mods, keeps_dir (build E entries mods).
Proof.
  induction entries as [|entry rest IH]; intros mods; simpl.
  - keeps_step.
  - keeps_step; [apply keeps_dir_add_mod | apply IH].
Qed.

Lemma keeps_dir_prune E mods mod_files : keeps_dir (prune E mods mod_files).
Proof.
  induction mod_files as [|f rest IH]; simpl; [keeps_step|].
  keeps_step; [|exact IH]. unfold prune_one. repeat keeps_step.
Qed.

Lemma keeps_dir_write_chunks name chunks : keeps_dir (write_chunks name chunks).
Proof.
  induction chunks as [|chunk rest IH]; simpl; [keeps_step|].
  keeps_step; [repeat keeps_step | exact IH].
Qed.

Lemma keeps_dir_download E name pid fid : keeps_dir (download E name pid fid).
Proof.
  unfold download, download_body.
  repeat (keeps_step || apply keeps_dir_write_chunks).
Qed.

Lemma keeps_dir_fetch_one E item : keeps_dir (fetch_one E item).
Proof.
  unfold fetch_one. destruct (fst item);
    repeat (keeps_step || apply keeps_dir_download).
Qed.

Lemma keeps_dir_fetch_all E items : keeps_dir (fetch_all E items).
Proof.
  induction items as [|item rest IH]; simpl; [keeps_step|].
  keeps_step; [apply keeps_dir_fetch_one | exact IH].
Qed.

Lemma keeps_dir_sync E mods : keeps_dir (sync E mods).
Proof.
  unfold sync.
  repeat (keeps_step || apply keeps_dir_prune || apply keeps_dir_fetch_all).
Qed.

Lemma keeps_dir_main E load : keeps_dir (main E load).
Proof.
  unfold main. destruct load;
    repeat (keeps_step || apply keeps_dir_build || apply keeps_dir_sync).
Qed.

Lemma main_start E load st :
  main E load st =
  match load with
  | LoadFailed => (print ErrorLoadingManifest >> ret EarlyReturn) (started st)
  | Loaded manifest =>
      (let* has_files := py_contains manifest "files" in
       if negb has_files then print ErrorNoFilesKey >> ret EarlyReturn
       else
         let* files := py_getitem manifest "files" in
         let* entries := py_iter files in
         let* mods_in_manifest := build E entries [] in
         print (FoundEntries (List.length mods_in_manifest)) >>
         sync E mods_in_manifest >>
         print Complete >>
         ret RanToEnd) (started st)
  end.
Proof.
  unfold main, started, dir_of. unfold bind at 1 2 3. simpl.
  rewrite <- app_assoc. simpl. by destruct load.
Qed.

(** ** C10: the mods folder exists after every run *)



(** ** C6: a manifest that cannot be used *)

(** Whatever makes the manifest unusable, the run ends before the mods
    folder is looked at: its contents and the requests made are those of
    the start. *)
Lemma unusable_manifest_leaves_dir E load st :
  match load with
  | LoadFailed => True
  | Loaded (JDict kv) => py_has_key kv "files" = false
  | Loaded _ => True
  end ->
  dir_of (snd (main E load st)) = dir_of st /\
  reqs (snd (main E load st)) = reqs st.
Proof.
  intros H. rewrite main_start.
  destruct load as [|[| | |s|l|kv]];
    unfold bind, py_contains, py_getitem, ret, raise, print; simpl; try done.
  - by destruct (str_contains s "files").
  - by destruct (existsb _ l).
  - by rewrite H.
Qed.

(** C6 — A manifest that is valid JSON but is a number has no ["files"]
    field; the membership test of line 29 raises on it.  The run ends with
    an uncaught [TypeError] and no error message, the mods folder being
    created and otherwise untouched. *)
Theorem number_manifest_raises E n st :
  main E (Loaded (JInt n)) st = (Raise TypeError, started st).
Proof. by rewrite main_start. Qed.

(** ** C9: identifiers that do not count *)

Lemma add_mod_skips E kv mods st :
  py_truthy (project_id_of kv) = false \/ py_truthy (file_id_of kv) = false ->
  add_mod E (JDict kv) mods st =
  (Val mods, mkState (mods_dir st) (out st ++ [SkippingEntry (JDict kv)])%list (reqs st)).
Proof.
  intros H. unfold add_mod.
  assert (Hs : negb (py_truthy (project_id_of kv)) || negb (py_truthy (file_id_of kv)) = true).
  { destruct H as [-> | ->]; simpl; [done | by rewrite orb_true_r]. }
  by rewrite Hs.
Qed.

(** C9 — An identifier that is present but falsy is one the entry does not
    have: a falsy value under ["projectID"] (["fileID"]) makes the script
    fall back on ["projectId"] (["fileId"]), and an entry whose project or
    file identifier ends up falsy is skipped with a warning, the mapping
    being left as it was. *)
Theorem falsy_identifier_is_missing E kv :
  (py_truthy (py_get kv "projectID") = false ->
   project_id_of kv = py_get kv "projectId") /\
  (py_truthy (py_get kv "fileID") = false ->
   file_id_of kv = py_get kv "fileId") /\
  (py_truthy (project_id_of kv) = false \/ py_truthy (file_id_of kv) = false ->
   forall mods st,
     add_mod E (JDict kv) mods st =
     (Val mods,
      mkState (mods_dir st) (out st ++ [SkippingEntry (JDict kv)])%list (reqs st))).
Proof.
  split; [|split].
  - intros H. unfold project_id_of, py_or. by rewrite H.
  - intros H. unfold file_id_of, py_or. by rewrite H.
  - intros H mods st. by apply add_mod_skips.
Qed.

(** The entry [{"projectID": 0, "projectId": 7, "fileID": ""}]: the project
    identifier falls back on 7 and the entry is skipped for its empty file
    identifier. *)
Lemma falsy_identifier_is_missing_witness :
  project_id_of [("projectID", JInt 0); ("projectId", JInt 7); ("fileID", JStr "")]
  = JInt 7 /\
  add_mod quiet_env
          (JDict [("projectID", JInt 0); ("projectId", JInt 7); ("fileID", JStr "")])
          [] fresh
  = (Val [],
     mkState None
             [SkippingEntry
                (JDict [("projectID", JInt 0); ("projectId", JInt 7); ("fileID", JStr "")])]
             []).
Proof.
  pose proof (falsy_identifier_is_missing quiet_env
    [("projectID", JInt 0); ("projectId", JInt 7); ("fileID", JStr "")])
    as (Hp & _ & Hskip).
  split.
  - apply Hp. reflexivity.
  - apply Hskip. right. reflexivity.
Defined.

(** ** C5: the synthesized file name *)

(** C5 — An entry without a ["fileName"] resolves to the name made of its
    project identifier, a dash, its file identifier and [".jar"]; when both
    identifiers count, this is the key the entry is stored under.  The
    entry [{"projectID": 100, "fileID": 200}] resolves to ["100-200.jar"]
    in every environment. *)
Theorem synthesized_file_name :
  (forall E kv,
      py_has_key kv "fileName" = false ->
      file_name_of E kv =
      JStr (py_str (repr_str E) (project_id_of kv) ++ "-" ++
            py_str (repr_str E) (file_id_of kv) ++ ".jar") /\
      (py_truthy (project_id_of kv) = true ->
       py_truthy (file_id_of kv) = true ->
       forall mods st,
         add_mod E (JDict kv) mods st =
         (Val (dict_set (JStr (py_str (repr_str E) (project_id_of kv) ++ "-" ++
                               py_str (repr_str E) (file_id_of kv) ++ ".jar"))
                        (project_id_of kv, file_id_of kv) mods), st))) /\
  (forall E, file_name_of E sample_entry = JStr "100-200.jar").
Proof.
  split; [|reflexivity].
  intros E kv Hk.
  assert (Hn : py_get kv "fileName" = JNull).
  { induction kv as [|[k v] rest IH]; [done|]. simpl in *.
    destruct (String.eqb k "fileName"); [done | by apply IH]. }
  assert (Hf : file_name_of E kv =
    JStr (py_str (repr_str E) (project_id_of kv) ++ "-" ++
          py_str (repr_str E) (file_id_of kv) ++ ".jar")).
  { unfold file_name_of, py_or. by rewrite Hn. }
  split; [exact Hf|].
  intros Hp Hi mods st. unfold add_mod. rewrite Hf, Hp, Hi. reflexivity.
Qed.

(** The sample entry is stored under ["100-200.jar"]. *)
Lemma synthesized_file_name_witness :
  file_name_of quiet_env sample_entry = JStr "100-200.jar" /\
  add_mod quiet_env (JDict sample_entry) [] fresh
  = (Val [(JStr "100-200.jar", (JInt 100, JInt 200))], fresh).
Proof.
  destruct (proj1 synthesized_file_name quiet_env sample_entry) as [Hf Ha];
    [reflexivity|].
  split; [exact Hf|].
  apply (Ha eq_refl eq_refl [] fresh).
Defined.

(** ** C4: the mapping built from well-formed entries *)

Arguments well_formed : simpl never.

Lemma py_eqb_sym a b : py_eqb a b = py_eqb b a.
Proof.
  destruct a, b; simpl; try reflexivity;
    try apply String.eqb_sym; apply Z.eqb_sym.
Qed.

Lemma py_eqb_refl k : py_hashable k = true -> py_eqb k k = true.
Proof.
  destruct k; simpl; try done; intros _.
  - apply Z.eqb_refl.
  - apply Z.eqb_refl.
  - apply String.eqb_refl.
Qed.


(** Having an identifier is what the test of line 43 looks at. *)
Lemma has_identifier_or kv k1 k2 :
  has_identifier kv k1 k2 = py_truthy (py_or (py_get kv k1) (py_get kv k2)).
Proof.
  unfold has_identifier, py_or.
  by destruct (py_truthy (py_get kv k1)) eqn:H.
Qed.

Lemma well_formed_dict kv :
  well_formed (JDict kv) =
  py_truthy (project_id_of kv) && py_truthy (file_id_of kv).
Proof. unfold well_formed. by rewrite !has_identifier_or. Qed.




(** One turn of the first loop on an entry that is a dictionary. *)
Lemma add_mod_well_formed E kv mods st :
  well_formed (JDict kv) = true ->
  py_hashable (file_name_of E kv) = true ->
  add_mod E (JDict kv) mods st =
  (Val (dict_set (file_name_of E kv) (project_id_of kv, file_id_of kv) mods), st).
Proof.
  rewrite well_formed_dict. intros [Hp Hf]%andb_true_iff Hh.
  unfold add_mod. by rewrite Hp, Hf, Hh.
Qed.

Lemma add_mod_not_well_formed E kv mods st :
  well_formed (JDict kv) = false ->
  add_mod E (JDict kv) mods st =
  (Val mods, mkState (mods_dir st) (out st ++ [SkippingEntry (JDict kv)])%list (reqs st)).
Proof.
  rewrite well_formed_dict. intros [H | H]%andb_false_iff;
    apply add_mod_skips; auto.
Qed.




(** ** C2: pruning *)

(** A state is its three fields. *)
Lemma set_dir_same st d : mods_dir st = Some d -> set_dir d st = st.
Proof. destruct st as [m o r]. simpl. by intros ->. Qed.








(** ** Fetching: one entry *)

Lemma alter_app_insert (d : gmap string (list byte)) f c chunk :
  d !! f = Some c ->
  alter (fun c => (c ++ chunk)%list) f d = <[f := (c ++ chunk)%list]> d.
Proof.
  intros Hf. apply map_eq. intros g.
  destruct (decide (f = g)) as [<-|Hne].
  - by rewrite lookup_alter_eq, lookup_insert_eq, Hf.
  - by rewrite lookup_alter_ne, lookup_insert_ne.
Qed.

(** Writing the chunks one after the other appends them all. *)
Lemma write_chunks_spec f chunks : forall st d c,
  mods_dir st = Some d -> d !! f = Some c ->
  write_chunks f chunks st = (Val tt, set_dir (<[f := written c chunks]> d) st).
Proof.
  unfold written.
  induction chunks as [|chunk rest IH]; intros st d c Hd Hf; simpl.
  - rewrite app_nil_r, insert_id by done. by rewrite set_dir_same.
  - destruct chunk as [|b chunk]; simpl.
    + unfold bind, ret. by apply IH.
    + unfold bind, write. rewrite Hd.
      rewrite (IH _ (<[f := (c ++ b :: chunk)%list]> d) (c ++ b :: chunk)%list).
      * rewrite (alter_app_insert d f c (b :: chunk) Hf).
        unfold set_dir; simpl. by rewrite insert_insert_eq, <- app_assoc.
      * simpl. by rewrite (alter_app_insert d f c (b :: chunk) Hf).
      * apply lookup_insert_eq.
Qed.

(** A file already there: nothing but the message. *)
Lemma fetch_one_present E f pid fid st d c :
  mods_dir st = Some d -> d !! f = Some c ->
  fetch_one E (JStr f, (pid, fid)) st =
  (Val tt, mkState (mods_dir st) (out st ++ [AlreadyExists f])%list (reqs st)).
Proof.
  intros Hd Hf. unfold fetch_one, bind, path_exists; simpl.
  rewrite Hd, Hf. unfold print. by rewrite Hd.
Qed.

(** A missing file: every way the second loop's body can go. *)
Lemma fetch_one_missing E f pid fid st d :
  mods_dir st = Some d -> d !! f = None ->
  exists st1,
    fetch_one E (JStr f, (pid, fid)) st = (Val tt, st1) /\
    match resolved_url E st pid fid with
    | None =>
        mods_dir st1 = Some d /\
        reqs st1 = (reqs st ++ [Get (api_url E pid fid)])%list /\
        exists m, reports_failure f m = true /\
                  out st1 = (out st ++ [Downloading f pid fid; m])%list
    | Some u =>
        reqs st1 = (reqs st ++ [Get (api_url E pid fid); GetStream u])%list /\
        match http_stream E (reqs st ++ [Get (api_url E pid fid)])%list u with
        | StreamExc =>
            mods_dir st1 = Some d /\
            out st1 = (out st ++ [Downloading f pid fid; ErrorDownloading f])%list
        | StreamResp code chunks broken =>
            if http_error code || open_fails E f then
              mods_dir st1 = Some d /\
              out st1 = (out st ++ [Downloading f pid fid; ErrorDownloading f])%list
            else
              mods_dir st1 = Some (<[f := List.concat chunks]> d) /\
              out st1 = (out st ++ [Downloading f pid fid;
                                    if broken then ErrorDownloading f
                                    else Downloaded f])%list
        end
    end.
Proof.
  intros Hd Hf.
  unfold fetch_one, bind at 1, path_exists; simpl. rewrite Hd, Hf.
  unfold bind at 1, print at 1; simpl.
  unfold download, try_except, download_body, resolved_url.
  unfold bind at 1, requests_get; simpl.
  destruct (http_get E (reqs st) (api_url E pid fid)) as [|code text]; simpl.
  { eexists. split; [reflexivity|]. simpl. rewrite ?Hd. repeat split.
    exists (ErrorDownloading f). simpl. rewrite String.eqb_refl.
    split; [done|]. by rewrite <- app_assoc. }
  destruct (code =? 200) eqn:Hcode; simpl.
  2:{ eexists. split; [reflexivity|]. simpl. rewrite ?Hd. repeat split.
      exists (ErrorStatus code f). simpl. rewrite String.eqb_refl.
      split; [done|]. by rewrite <- app_assoc. }
  destruct (startswith (strip text) "http") eqn:Hpre; simpl.
  2:{ eexists. split; [reflexivity|]. simpl. rewrite ?Hd. repeat split.
      exists (ErrorInvalidUrl f (strip text)). simpl. rewrite String.eqb_refl.
      split; [done|]. by rewrite <- app_assoc. }
  unfold bind at 1, requests_get_stream; simpl.
  destruct (http_stream E (reqs st ++ [Get (api_url E pid fid)])%list (strip text))
    as [|scode chunks broken]; simpl.
  { eexists. split; [reflexivity|]. simpl. rewrite ?Hd.
    by rewrite <- !app_assoc. }
  unfold bind at 1, raise_for_status, http_error.
  destruct ((400 <=? scode) && (scode <? 600)); simpl.
  { eexists. split; [reflexivity|]. simpl. rewrite ?Hd.
    by rewrite <- !app_assoc. }
  unfold bind at 1, open_wb; simpl. rewrite Hd.
  destruct (open_fails E f); simpl.
  { eexists. split; [reflexivity|]. simpl. rewrite ?Hd.
    by rewrite <- !app_assoc. }
  unfold bind at 1.
  erewrite write_chunks_spec; [|reflexivity|apply lookup_insert_eq].
  unfold written; simpl. rewrite insert_insert_eq.
  destruct broken; simpl.
  - eexists. split; [reflexivity|]. simpl. by rewrite <- !app_assoc.
  - eexists. split; [reflexivity|]. simpl. by rewrite <- !app_assoc.
Qed.

(** What one turn of the second loop can do to the folder, the messages
    and the requests, however it ends. *)
Lemma fetch_one_effect E item st d :
  mods_dir st = Some d ->
  exists d1 ms rs,
    mods_dir (snd (fetch_one E item st)) = Some d1 /\
    out (snd (fetch_one E item st)) = (out st ++ ms)%list /\
    reqs (snd (fetch_one E item st)) = (reqs st ++ rs)%list /\
    (forall g c, d !! g = Some c -> d1 !! g = Some c) /\
    (forall g, d1 !! g <> None -> d !! g <> None \/ fst item = JStr g) /\
    (fst (fetch_one E item st) = Val tt ->
     exists f, fst item = JStr f /\
               (d1 !! f <> None \/
                exists m, In m ms /\ reports_failure f m = true)).
Proof.
  intros Hd. destruct item as [k [pid fid]].
  destruct k as [| | |f| |];
    try (exists d, [], []; unfold fetch_one; simpl; rewrite !app_nil_r;
         repeat split; auto; discriminate).
  destruct (d !! f) as [c|] eqn:Hf.
  - rewrite (fetch_one_present E f pid fid st d c Hd Hf). simpl.
    exists d, [AlreadyExists f], []. rewrite app_nil_r.
    repeat split; auto. intros _. exists f. split; [done|]. left. by rewrite Hf.
  - destruct (fetch_one_missing E f pid fid st d Hd Hf) as (st1 & Hrun & Hcases).
    rewrite Hrun. simpl.
    assert (Hfresh : forall x g c, d !! g = Some c -> <[f := x]> d !! g = Some c).
    { intros x g c Hg. rewrite lookup_insert_ne; [done|]. congruence. }
    assert (Hnew : forall x g, <[f := x]> d !! g <> None ->
                               d !! g <> None \/ JStr f = JStr g).
    { intros x g Hg. destruct (decide (f = g)) as [->|Hne]; [by right|].
      left. by rewrite lookup_insert_ne in Hg. }
    destruct (resolved_url E st pid fid) as [u|].
    + destruct Hcases as [Hr Hcases].
      destruct (http_stream E _ u) as [|code chunks broken].
      * destruct Hcases as [Hd1 Ho].
        exists d, [Downloading f pid fid; ErrorDownloading f],
               [Get (api_url E pid fid); GetStream u].
        repeat split; auto. intros _. exists f. split; [done|]. right.
        exists (ErrorDownloading f). simpl. rewrite String.eqb_refl. auto.
      * destruct (http_error code || open_fails E f).
        -- destruct Hcases as [Hd1 Ho].
           exists d, [Downloading f pid fid; ErrorDownloading f],
                  [Get (api_url E pid fid); GetStream u].
           repeat split; auto. intros _. exists f. split; [done|]. right.
           exists (ErrorDownloading f). simpl. rewrite String.eqb_refl. auto.
        -- destruct Hcases as [Hd1 Ho].
           eexists (<[f := List.concat chunks]> d), _,
                   [Get (api_url E pid fid); GetStream u].
           split; [done|]. split; [exact Ho|]. split; [done|].
           split; [by apply Hfresh|]. split; [by apply Hnew|].
           intros _. exists f. split; [done|]. left. by rewrite lookup_insert_eq.
    + destruct Hcases as (Hd1 & Hr & m & Hm & Ho).
      exists d, [Downloading f pid fid; m], [Get (api_url E pid fid)].
      repeat split; auto. intros _. exists f. split; [done|]. right.
      exists m. simpl. auto.
Qed.

(** ** C3: a file already on disk *)

Lemma fetch_all_keeps_present E items : forall st d f c,
  mods_dir st = Some d -> d !! f = Some c ->
  dir_of (snd (fetch_all E items st)) !! f = Some c.
Proof.
  induction items as [|item rest IH]; intros st d f c Hd Hf; simpl.
  - unfold dir_of. by rewrite Hd.
  - destruct (fetch_one_effect E item st d Hd)
      as (d1 & ms & rs & Hd1 & _ & _ & Hkeep & _).
    unfold bind. destruct (fetch_one E item st) as [[[]|e] st1]; simpl in *.
    + apply (IH st1 d1); auto.
    + unfold dir_of. rewrite Hd1. simpl. by apply Hkeep.
Qed.

(** C3 — For a desired entry whose file is on disk, whatever it holds, the
    second loop only prints that the mod exists: no request is made, the
    folder is left as it is, and this for every environment, hence
    whatever the remote would answer.  The file still has its contents
    when the whole loop is over, whatever the other entries are. *)
Theorem present_file_is_not_fetched E f pid fid st d c :
  mods_dir st = Some d -> d !! f = Some c ->
  fetch_one E (JStr f, (pid, fid)) st =
  (Val tt, mkState (mods_dir st) (out st ++ [AlreadyExists f])%list (reqs st)) /\
  (forall items, dir_of (snd (fetch_all E items st)) !! f = Some c).
Proof.
  intros Hd Hf. split.
  - by apply (fetch_one_present E f pid fid st d c).
  - intros items. by apply (fetch_all_keeps_present E items st d).
Qed.

(** ["jei.jar"] is on disk: a remote ready to serve it is not asked. *)
Lemma present_file_is_not_fetched_witness :
  fetch_one (serving_env false) (JStr "jei.jar", (JInt 238222, JInt 4712)) sample_state =
  (Val tt, mkState (Some sample_dir) [AlreadyExists "jei.jar"] []) /\
  (forall items,
      dir_of (snd (fetch_all (serving_env false) items sample_state)) !! "jei.jar"
      = Some [x02]).
Proof.
  apply (present_file_is_not_fetched (serving_env false) "jei.jar"
           (JInt 238222) (JInt 4712) sample_state sample_dir [x02]);
    reflexivity.
Defined.

(** ** C7: a failed download stays with its entry *)



(** ** C8: when the download is made *)

(** C8 — For a desired entry missing from disk, the streamed download is
    requested only when the resolution call answered with status 200 and
    a body that, stripped, starts with ["http"], and then from that very
    URL.  Otherwise the entry is given up with a report of the failure for
    this file, the only request made is the resolution call, and the
    folder is as before: no file is written. *)
Theorem download_needs_resolved_url E f pid fid st d :
  mods_dir st = Some d -> d !! f = None ->
  exists st1,
    fetch_one E (JStr f, (pid, fid)) st = (Val tt, st1) /\
    (forall u, resolved_url E st pid fid = Some u <->
               exists code text,
                 http_get E (reqs st) (api_url E pid fid) = HttpResp code text /\
                 code = 200 /\ startswith (strip text) "http" = true /\
                 u = strip text) /\
    (forall u, In (GetStream u) (reqs st1) ->
               In (GetStream u) (reqs st) \/ resolved_url E st pid fid = Some u) /\
    (forall d1, mods_dir st1 = Some d1 -> d1 !! f <> None ->
                is_Some (resolved_url E st pid fid)) /\
    (resolved_url E st pid fid = None ->
     mods_dir st1 = Some d /\
     reqs st1 = (reqs st ++ [Get (api_url E pid fid)])%list /\
     exists m, reports_failure f m = true /\
               out st1 = (out st ++ [Downloading f pid fid; m])%list).
Proof.
  intros Hd Hf.
  destruct (fetch_one_missing E f pid fid st d Hd Hf) as (st1 & Hrun & Hcases).
  exists st1. split; [done|]. split.
  { intros u. unfold resolved_url.
    destruct (http_get E (reqs st) (api_url E pid fid)) as [|code text].
    - split; [done | by intros (? & ? & ? & _)].
    - destruct (code =? 200) eqn:Hc; simpl.
      + apply Z.eqb_eq in Hc as ->.
        destruct (startswith (strip text) "http") eqn:Hp.
        * split.
          -- intros [= <-]. by exists 200, text.
          -- by intros (? & ? & [= <- <-] & _ & _ & ->).
        * split; [done|]. intros (? & ? & [= <- <-] & _ & Hp' & _). congruence.
      + split; [done|]. intros (? & ? & [= <- <-] & -> & _). discriminate. }
  destruct (resolved_url E st pid fid) as [u|].
  - destruct Hcases as [Hr _]. split; [|split; [eauto | done]].
    intros u' Hin. rewrite Hr in Hin. apply in_app_or in Hin as [Hin | Hin].
    + by left.
    + right. simpl in Hin. destruct Hin as [? | [[= ->] | []]]; done.
  - destruct Hcases as (Hd1 & Hr & m & Hm & Ho). split; [|split].
    + intros u' Hin. left. rewrite Hr in Hin.
      apply in_app_or in Hin as [Hin | Hin]; [done|].
      simpl in Hin. by destruct Hin as [? | []].
    + intros d1 Hd1' Hne. rewrite Hd1 in Hd1'. injection Hd1' as <-. congruence.
    + intros _. eauto.
Qed.

(** The resolution call answers 404: one request, one report, no file. *)
Lemma download_needs_resolved_url_witness :
  exists st1,
    fetch_one missing_env (JStr "100-200.jar", (JInt 100, JInt 200)) sample_state
    = (Val tt, st1) /\
    (forall u, resolved_url missing_env sample_state (JInt 100) (JInt 200) = Some u <->
               exists code text,
                 http_get missing_env (reqs sample_state)
                          (api_url missing_env (JInt 100) (JInt 200))
                 = HttpResp code text /\
                 code = 200 /\ startswith (strip text) "http" = true /\
                 u = strip text) /\
    (forall u, In (GetStream u) (reqs st1) ->
               In (GetStream u) (reqs sample_state) \/
               resolved_url missing_env sample_state (JInt 100) (JInt 200) = Some u) /\
    (forall d1, mods_dir st1 = Some d1 -> d1 !! "100-200.jar" <> None ->
                is_Some (resolved_url missing_env sample_state (JInt 100) (JInt 200))) /\
    (resolved_url missing_env sample_state (JInt 100) (JInt 200) = None ->
     mods_dir st1 = Some sample_dir /\
     reqs st1 = (reqs sample_state ++
                 [Get (api_url missing_env (JInt 100) (JInt 200))])%list /\
     exists m, reports_failure "100-200.jar" m = true /\
               out st1 = (out sample_state ++
                          [Downloading "100-200.jar" (JInt 100) (JInt 200); m])%list).
Proof.
  apply (download_needs_resolved_url missing_env "100-200.jar"
           (JInt 100) (JInt 200) sample_state sample_dir);
    reflexivity.
Defined.

(** ** C1: the folder after a complete run *)







(** A run that reaches the end of [main] went through each stage. *)
Lemma main_ran_to_end E manifest st st' :
  main E (Loaded manifest) st = (Val RanToEnd, st') ->
  exists kv entries mods s2 s4,
    manifest = JDict kv /\ py_has_key kv "files" = true /\
    py_iter (py_get kv "files") (started st) = (Val entries, started st) /\
    build E entries [] (started st) = (Val mods, s2) /\
    sync E mods (mkState (mods_dir s2)
                         (out s2 ++ [FoundEntries (List.length mods)])%list
                         (reqs s2)) = (Val tt, s4) /\
    st' = mkState (mods_dir s4) (out s4 ++ [Complete])%list (reqs s4).
Proof.
  rewrite main_start. intros H.
  destruct manifest as [| | |s|l|kv]; try discriminate.
  - unfold bind, py_contains, ret in H. simpl in H.
    destruct (str_contains s "files"); discriminate.
  - unfold bind, py_contains, ret in H. simpl in H.
    destruct (existsb _ l); discriminate.
  - unfold bind at 1, py_contains, ret in H.
    destruct (py_has_key kv "files") eqn:Hk; [|discriminate]. simpl in H.
    unfold bind at 1, py_getitem in H. rewrite Hk in H. unfold ret at 1 in H.
    unfold bind at 1 in H.
    destruct (py_iter (py_get kv "files") (started st)) as [[entries|e] s1] eqn:Hi;
      [|discriminate].
    assert (Hs1 : s1 = started st).
    { destruct (py_get kv "files"); simpl in Hi; unfold ret, raise in Hi; congruence. }
    subst s1. unfold bind at 1 in H.
    destruct (build E entries [] (started st)) as [[mods|e] s2] eqn:Hb; [|discriminate].
    unfold bind at 1, print at 1 in H. unfold bind at 1 in H.
    destruct (sync E mods _) as [[[]|e] s4] eqn:Hs; [|discriminate].
    unfold bind, print, ret in H. injection H as <-.
    exists kv, entries, mods, s2, s4. by repeat split.
Qed.




(** * Sample runs *)

Example is_mod_file_samples :
  is_mod_file "Mod.JAR" = true /\ is_mod_file ".jar" = true /\
  is_mod_file "jar" = false /\ is_mod_file "mod.jar.bak" = false.
Proof. repeat split. Qed.

Example strip_samples :
  strip "  http://cdn.example/a b.jar
" = "http://cdn.example/a b.jar" /\
  strip "   " = "" /\
  startswith (strip " https://x") "http" = true /\
  startswith (strip "ftp://x") "http" = false.
Proof. repeat split. Qed.

Example truthy_samples :
  map py_truthy [JNull; JBool false; JInt 0; JStr ""; JList []; JDict [];
                 JBool true; JInt (-1); JStr "0"; JList [JNull]]
  = [false; false; false; false; false; false; true; true; true; true].
Proof. reflexivity. Qed.

(** [True] and [1] are one key; assigning to it keeps the first spelling. *)
Example dict_set_samples :
  dict_set (JInt 1) (JInt 3, JInt 4) [(JBool true, (JInt 1, JInt 2))]
  = [(JBool true, (JInt 3, JInt 4))] /\
  dict_set (JStr "1") (JInt 3, JInt 4) [(JInt 1, (JInt 1, JInt 2))]
  = [(JInt 1, (JInt 1, JInt 2)); (JStr "1", (JInt 3, JInt 4))].
Proof. split; reflexivity. Qed.

(** The sample manifest on the sample folder, the remote serving: the
    outdated mod goes, the missing one comes, the others stay. *)
Example sample_run :
  let r := main (serving_env false) (Loaded sample_manifest) sample_state in
  fst r = Val RanToEnd /\
  out (snd r) =
  [UsingManifest; ModsDirectory; FoundEntries 2;
   RemovingOutdated "old.JAR";
   Downloading "100-200.jar" (JInt 100) (JInt 200);
   Downloaded "100-200.jar";
   AlreadyExists "jei.jar";
   Complete] /\
  reqs (snd r) =
  [Get "https://addons-ecs.forgesvc.net/api/v2/addon/100/file/200/download-url";
   GetStream "http://cdn.example/mod.jar"] /\
  dir_of (snd r) !! "100-200.jar" = Some [x50; x4b; x03] /\
  dir_of (snd r) !! "jei.jar" = Some [x02] /\
  dir_of (snd r) !! "notes.txt" = Some [x03] /\
  dir_of (snd r) !! "old.JAR" = None.
Proof. vm_compute. repeat split; reflexivity. Qed.

(** Manifests that are no JSON object. *)
Example odd_manifests :
  fst (main quiet_env (Loaded (JList [])) fresh) = Val EarlyReturn /\
  fst (main quiet_env (Loaded (JStr "no such field")) fresh) = Val EarlyReturn /\
  fst (main quiet_env (Loaded JNull) fresh) = Raise TypeError /\
  fst (main quiet_env (Loaded (JList [JStr "files"])) fresh) = Raise TypeError /\
  fst (main quiet_env (Loaded (JDict [("files", JInt 5)])) fresh) = Raise TypeError /\
  fst (main quiet_env (Loaded (JDict [("files", JList [JInt 5])])) fresh)
  = Raise AttributeError.
Proof. vm_compute. repeat split; reflexivity. Qed.

(** * Further properties of the first loop *)

Lemma py_eqb_trans a b c :
  py_eqb a b = true -> py_eqb b c = true -> py_eqb a c = true.
Proof.
  destruct a, b, c; simpl; try discriminate;
    rewrite ?Z.eqb_eq, ?String.eqb_eq; congruence.
Qed.

Lemma dict_mem_false (d : dict) k :
  dict_mem k d = false <->
  forallb (fun p => negb (py_eqb (fst p) k)) d = true.
Proof.
  unfold dict_mem. induction d as [|[k' v'] rest IH]; simpl; [done|].
  destruct (py_eqb k' k); simpl; [split; discriminate | exact IH].
Qed.

(** An assignment keeps the keys when the key is there and adds it at the
    end otherwise. *)
Lemma dict_set_keys k v (d : dict) :
  map fst (dict_set k v d) =
  if dict_mem k d then map fst d else (map fst d ++ [k])%list.
Proof.
  unfold dict_mem. induction d as [|[k' v'] rest IH]; simpl; [done|].
  destruct (py_eqb k' k); simpl; [done|].
  rewrite IH. by destruct (dict_get k rest).
Qed.

Lemma distinct_keys_snoc l k :
  distinct_keys l = true ->
  forallb (fun k' => negb (py_eqb k' k)) l = true ->
  distinct_keys (l ++ [k]) = true.
Proof.
  induction l as [|k' l IH]; simpl; [done|].
  intros [Hall Hd]%andb_true_iff [Hk Hrest]%andb_true_iff.
  rewrite forallb_app, Hall. simpl. rewrite Hk. simpl. by apply IH.
Qed.

Lemma dict_set_distinct k v (d : dict) :
  distinct_keys (map fst d) = true ->
  distinct_keys (map fst (dict_set k v d)) = true.
Proof.
  intros Hd. rewrite dict_set_keys.
  destruct (dict_mem k d) eqn:Hmem; [done|].
  apply distinct_keys_snoc; [done|].
  apply dict_mem_false in Hmem. rewrite forallb_forall in Hmem.
  apply forallb_forall. intros k' Hin. apply in_map_iff in Hin as (p & <- & Hp).
  by apply Hmem.
Qed.

Lemma dict_set_length k v (d : dict) :
  (List.length (dict_set k v d) <= S (List.length d))%nat.
Proof.
  induction d as [|[k' v'] rest IH]; simpl; [lia|].
  destruct (py_eqb k' k); simpl; lia.
Qed.

(** Where the bindings of a mapping come from after an assignment. *)
Lemma dict_set_in k v (d : dict) k0 v0 :
  In (k0, v0) (dict_set k v d) ->
  In (k0, v0) d \/ (v0 = v /\ (k0 = k \/ py_eqb k0 k = true)).
Proof.
  induction d as [|[k' v'] rest IH]; simpl.
  - intros [[= <- <-] | []]. right. auto.
  - destruct (py_eqb k' k) eqn:Hk; simpl.
    + intros [[= <- <-] | Hin]; [right; auto | left; auto].
    + intros [Heq | Hin]; [left; auto|].
      destruct (IH Hin) as [? | ?]; [left; auto | right; auto].
Qed.

(** Reading back what was just assigned, and reading another key. *)
Lemma dict_get_set_eq k v (d : dict) :
  py_eqb k k = true -> dict_get k (dict_set k v d) = Some v.
Proof.
  intros Hrefl. induction d as [|[k' v'] rest IH]; simpl.
  - by rewrite Hrefl.
  - destruct (py_eqb k' k) eqn:Hk; simpl; by rewrite Hk.
Qed.

Lemma dict_get_set_ne k k' v (d : dict) :
  py_eqb k' k = false -> dict_get k (dict_set k' v d) = dict_get k d.
Proof.
  intros Hne. induction d as [|[k0 v0] rest IH]; simpl.
  - by rewrite Hne.
  - destruct (py_eqb k0 k') eqn:H0; simpl.
    + destruct (py_eqb k0 k) eqn:H1; [|done].
      rewrite py_eqb_sym in H0.
      by rewrite (py_eqb_trans k' k0 k H0 H1) in Hne.
    + destruct (py_eqb k0 k); [done | exact IH].
Qed.

(** A turn of the first loop that does not raise. *)
Lemma add_mod_val E entry mods st mods' st' :
  add_mod E entry mods st = (Val mods', st') ->
  exists kv,
    entry = JDict kv /\
    ((well_formed entry = true /\ py_hashable (file_name_of E kv) = true /\
      mods' = dict_set (file_name_of E kv) (project_id_of kv, file_id_of kv) mods /\
      st' = st) \/
     (well_formed entry = false /\ mods' = mods /\
      st' = mkState (mods_dir st) (out st ++ [SkippingEntry entry])%list (reqs st))).
Proof.
  destruct entry as [| | | | |kv]; try discriminate.
  intros H. exists kv. split; [done|].
  destruct (well_formed (JDict kv)) eqn:Hwf.
  - left. destruct (py_hashable (file_name_of E kv)) eqn:Hh.
    + rewrite add_mod_well_formed in H by done. by injection H as <- <-.
    + rewrite well_formed_dict in Hwf. apply andb_true_iff in Hwf as [Hp Hf].
      unfold add_mod in H. rewrite Hp, Hf, Hh in H. discriminate.
  - right. rewrite add_mod_not_well_formed in H by done. by injection H as <- <-.
Qed.

(** The invariant of the first loop. *)
Lemma build_invariant E entries : forall (acc : dict) st mods st',
  build E entries acc st = (Val mods, st') ->
  (distinct_keys (map fst acc) = true -> distinct_keys (map fst mods) = true) /\
  (List.length mods <= List.length acc + List.length (List.filter well_formed entries))%nat /\
  (forall k v, In (k, v) mods ->
     In (k, v) acc \/
     exists e, In e entries /\ well_formed e = true /\ v = resolved_ids e /\
               (k = resolved_name E e \/ py_eqb k (resolved_name E e) = true)) /\
  mods_dir st' = mods_dir st /\ reqs st' = reqs st /\
  out st' = (out st ++
             map SkippingEntry (List.filter (fun e => negb (well_formed e)) entries))%list.
Proof.
  induction entries as [|entry rest IH]; intros acc st mods st' H; simpl in H.
  - injection H as <- <-. simpl. rewrite app_nil_r.
    repeat split; auto. lia.
  - unfold bind in H.
    destruct (add_mod E entry acc st) as [[acc1|e] st1] eqn:Ha; [|discriminate].
    destruct (add_mod_val E entry acc st acc1 st1 Ha) as (kv & -> & Hcase).
    destruct (IH acc1 st1 mods st' H) as (Hd & Hl & Hin & Hm & Hr & Ho).
    simpl.
    destruct Hcase as [(Hwf & Hh & -> & ->) | (Hwf & -> & ->)]; rewrite Hwf; simpl.
    + split; [intros Hacc; by apply Hd, dict_set_distinct|].
      split.
      { pose proof (dict_set_length (file_name_of E kv)
                      (project_id_of kv, file_id_of kv) acc). lia. }
      split; [|done].
      intros k v Hkv. destruct (Hin k v Hkv) as [Hacc | (e & He & Hwe & Hv & Hk)].
      * destruct (dict_set_in _ _ _ _ _ Hacc) as [? | [-> Hk]]; [by left|].
        right. exists (JDict kv). split; [by left|]. by repeat split.
      * right. exists e. split; [by right|]. by repeat split.
    + split; [done|]. split; [done|].
      split; [|split; [done|split; [done|]]].
      * intros k v Hkv. destruct (Hin k v Hkv) as [? | (e & He & Hwe & Hv & Hk)];
          [by left|].
        right. exists e. split; [by right|]. by repeat split.
      * rewrite Ho. simpl. by rewrite <- app_assoc.
Qed.

(** X1 — Whatever the entries, also with names that repeat, the mapping
    the first loop ends with has pairwise different keys, no more keys than
    there are entries with both identifiers, and each of its bindings comes
    from such an entry: the value is the pair of identifiers of the entry
    and the key is equal, for Python, to the name the entry resolves to. *)
Theorem mapping_keys_are_distinct E entries st mods st' :
  build E entries [] st = (Val mods, st') ->
  distinct_keys (map fst mods) = true /\
  (List.length mods <= List.length (List.filter well_formed entries))%nat /\
  (forall k v, In (k, v) mods ->
     exists e, In e entries /\ well_formed e = true /\ v = resolved_ids e /\
               (k = resolved_name E e \/ py_eqb k (resolved_name E e) = true)).
Proof.
  intros H.
  destruct (build_invariant E entries [] st mods st' H) as (Hd & Hl & Hin & _).
  split; [by apply Hd|]. split; [exact Hl|].
  intros k v Hkv. by destruct (Hin k v Hkv) as [[] | ?].
Qed.

(** Two entries share the name ["jei.jar"]: one key. *)
Lemma mapping_keys_are_distinct_witness :
  distinct_keys
    (map fst [(JStr "jei.jar", (JInt 2, JInt 20)); (JStr "100-200.jar", (JInt 100, JInt 200))])
  = true /\
  (List.length [(JStr "jei.jar", (JInt 2, JInt 20));
                (JStr "100-200.jar", (JInt 100, JInt 200))]
   <= List.length
        (List.filter well_formed
           [JDict [("projectID", JInt 1); ("fileID", JInt 10); ("fileName", JStr "jei.jar")];
            JDict sample_entry;
            JDict [("projectID", JInt 2); ("fileID", JInt 20); ("fileName", JStr "jei.jar")]]))%nat /\
  (forall k v,
      In (k, v) [(JStr "jei.jar", (JInt 2, JInt 20));
                 (JStr "100-200.jar", (JInt 100, JInt 200))] ->
      exists e,
        In e [JDict [("projectID", JInt 1); ("fileID", JInt 10); ("fileName", JStr "jei.jar")];
              JDict sample_entry;
              JDict [("projectID", JInt 2); ("fileID", JInt 20); ("fileName", JStr "jei.jar")]] /\
        well_formed e = true /\ v = resolved_ids e /\
        (k = resolved_name quiet_env e \/ py_eqb k (resolved_name quiet_env e) = true)).
Proof.
  apply (mapping_keys_are_distinct quiet_env
           [JDict [("projectID", JInt 1); ("fileID", JInt 10); ("fileName", JStr "jei.jar")];
            JDict sample_entry;
            JDict [("projectID", JInt 2); ("fileID", JInt 20); ("fileName", JStr "jei.jar")]]
           fresh _ fresh).
  reflexivity.
Defined.

Lemma add_mod_unhashable E kv mods st :
  well_formed (JDict kv) = true ->
  py_hashable (file_name_of E kv) = false ->
  add_mod E (JDict kv) mods st = (Raise TypeError, st).
Proof.
  rewrite well_formed_dict. intros [Hp Hf]%andb_true_iff Hh.
  unfold add_mod. by rewrite Hp, Hf, Hh.
Qed.

Lemma add_mod_frame E entry mods st :
  mods_dir (snd (add_mod E entry mods st)) = mods_dir st /\
  reqs (snd (add_mod E entry mods st)) = reqs st.
Proof.
  destruct entry; simpl; try done.
  destruct (_ || _); [done|]. by destruct (py_hashable _).
Qed.

Lemma build_frame E entries : forall mods st,
  mods_dir (snd (build E entries mods st)) = mods_dir st /\
  reqs (snd (build E entries mods st)) = reqs st.
Proof.
  induction entries as [|entry rest IH]; intros mods st; simpl; [done|].
  unfold bind. pose proof (add_mod_frame E entry mods st) as [Hm Hr].
  destruct (add_mod E entry mods st) as [[mods'|e] st1]; simpl in *; [|done].
  destruct (IH mods' st1) as [Hm' Hr']. split; congruence.
Qed.

(** X2 — The first loop leaves the mods folder alone and makes no request,
    also when it raises; when it ends normally, what it printed is one
    warning for each entry that lacks an identifier, in the order of the
    manifest, and nothing else. *)
Theorem first_loop_only_warns E entries st :
  mods_dir (snd (build E entries [] st)) = mods_dir st /\
  reqs (snd (build E entries [] st)) = reqs st /\
  (forall mods,
      fst (build E entries [] st) = Val mods ->
      out (snd (build E entries [] st)) =
      (out st ++
       map SkippingEntry (List.filter (fun e => negb (well_formed e)) entries))%list).
Proof.
  destruct (build_frame E entries [] st) as [Hm Hr].
  split; [done|]. split; [done|].
  intros mods Hv.
  destruct (build E entries [] st) as [r st'] eqn:Hb. simpl in *. subst r.
  by destruct (build_invariant E entries [] st mods st' Hb) as (_ & _ & _ & _ & _ & Ho).
Qed.

Lemma first_loop_only_warns_witness :
  out (snd (build quiet_env
                  [JDict [("projectID", JInt 5)]; JDict sample_entry; JDict []]
                  [] fresh))
  = [SkippingEntry (JDict [("projectID", JInt 5)]); SkippingEntry (JDict [])].
Proof.
  destruct (first_loop_only_warns quiet_env
              [JDict [("projectID", JInt 5)]; JDict sample_entry; JDict []] fresh)
    as (_ & _ & Hout).
  apply (Hout [(JStr "100-200.jar", (JInt 100, JInt 200))]). reflexivity.
Defined.

Lemma build_app E pre : forall rest acc st mods st',
  build E (pre ++ rest) acc st = (Val mods, st') ->
  exists acc1 st1,
    build E pre acc st = (Val acc1, st1) /\
    build E rest acc1 st1 = (Val mods, st').
Proof.
  induction pre as [|entry pre IH]; intros rest acc st mods st' H; simpl in *.
  - by exists acc, st.
  - unfold bind in *.
    destruct (add_mod E entry acc st) as [[acc0|e] st0]; [|discriminate].
    by apply IH.
Qed.

(** A binding stays as it is while no later entry has its name. *)
Lemma build_get_kept E post : forall (acc : dict) st mods st' k v,
  build E post acc st = (Val mods, st') ->
  dict_get k acc = Some v ->
  forallb (fun e => negb (well_formed e && py_eqb (resolved_name E e) k)) post = true ->
  dict_get k mods = Some v.
Proof.
  induction post as [|entry post IH]; intros acc st mods st' k v H Hget Hlater;
    simpl in H.
  - by injection H as <- <-.
  - unfold bind in H.
    destruct (add_mod E entry acc st) as [[acc1|e] st1] eqn:Ha; [|discriminate].
    simpl in Hlater. apply andb_true_iff in Hlater as [Hentry Hlater].
    apply (IH acc1 st1 mods st' k v H); [|done].
    destruct (add_mod_val E entry acc st acc1 st1 Ha) as (kv & -> & Hcase).
    destruct Hcase as [(Hwf & Hh & -> & ->) | (Hwf & -> & ->)]; [|done].
    rewrite Hwf in Hentry. simpl in Hentry. apply negb_true_iff in Hentry.
    by rewrite dict_get_set_ne.
Qed.

(** X3 — When several entries resolve to one name the last of them wins:
    an entry with both identifiers that no later such entry shares its
    name with is found in the mapping under its name, with its own pair of
    identifiers, whatever came before it. *)
Theorem last_entry_wins E pre kv post st mods st' :
  build E (pre ++ JDict kv :: post) [] st = (Val mods, st') ->
  well_formed (JDict kv) = true ->
  forallb (fun e => negb (well_formed e && py_eqb (resolved_name E e) (file_name_of E kv)))
          post = true ->
  dict_get (file_name_of E kv) mods = Some (project_id_of kv, file_id_of kv).
Proof.
  intros H Hwf Hlater.
  destruct (build_app E pre (JDict kv :: post) [] st mods st' H)
    as (acc1 & st1 & _ & Hrest).
  cbn [build] in Hrest. unfold bind in Hrest.
  destruct (add_mod E (JDict kv) acc1 st1) as [[acc2|e] st2] eqn:Ha; [|discriminate].
  destruct (add_mod_val E _ _ _ _ _ Ha) as (kv' & [= <-] & Hcase).
  destruct Hcase as [(_ & Hh & -> & ->) | (Hno & _)]; [|congruence].
  apply (build_get_kept E post _ st1 mods st' _ _ Hrest); [|done].
  apply dict_get_set_eq. by apply py_eqb_refl.
Qed.

(** ["jei.jar"] is named twice, with another entry in between. *)
Lemma last_entry_wins_witness :
  dict_get (JStr "jei.jar")
           [(JStr "jei.jar", (JInt 2, JInt 20)); (JStr "100-200.jar", (JInt 100, JInt 200))]
  = Some (JInt 2, JInt 20).
Proof.
  apply (last_entry_wins quiet_env
           [JDict [("projectID", JInt 1); ("fileID", JInt 10); ("fileName", JStr "jei.jar")]]
           [("projectID", JInt 2); ("fileID", JInt 20); ("fileName", JStr "jei.jar")]
           [JDict sample_entry] fresh _ fresh);
    reflexivity.
Defined.

Lemma build_skips E entries : forall (acc : dict) st st',
  forallb is_dict entries = true ->
  fst (build E entries acc st) =
  fst (build E (List.filter well_formed entries) acc st').
Proof.
  induction entries as [|entry rest IH]; intros acc st st' Hdict; simpl; [done|].
  simpl in Hdict. apply andb_true_iff in Hdict as [He Hdict].
  destruct entry as [| | | | |kv]; try done. clear He.
  destruct (well_formed (JDict kv)) eqn:Hwf.
  - cbn [build]. unfold bind.
    destruct (py_hashable (file_name_of E kv)) eqn:Hh.
    + rewrite !add_mod_well_formed by done. by apply IH.
    + by rewrite !add_mod_unhashable.
  - unfold bind. rewrite add_mod_not_well_formed by done. by apply IH.
Qed.

(** X4 — On a list of JSON objects, the entries that lack an identifier
    change nothing of the outcome of the first loop: it builds the mapping,
    or raises the exception, it would on the list without them. *)
Theorem skipped_entries_do_not_matter E entries st :
  forallb is_dict entries = true ->
  fst (build E entries [] st) =
  fst (build E (List.filter well_formed entries) [] st).
Proof. intros Hdict. by apply build_skips. Qed.

Lemma skipped_entries_do_not_matter_witness :
  fst (build quiet_env
             [JDict [("projectID", JInt 5)]; JDict sample_entry; JDict []] [] fresh)
  = fst (build quiet_env [JDict sample_entry] [] fresh).
Proof.
  apply (skipped_entries_do_not_matter quiet_env
           [JDict [("projectID", JInt 5)]; JDict sample_entry; JDict []] fresh).
  reflexivity.
Defined.

(** * Further properties of the second loop *)

Lemma fetch_one_missing_summary E f pid fid st d :
  mods_dir st = Some d -> d !! f = None ->
  exists st1 d1 rs,
    fetch_one E (JStr f, (pid, fid)) st = (Val tt, st1) /\
    mods_dir st1 = Some d1 /\
    (d1 = d \/ exists c, d1 = <[f := c]> d) /\
    reqs st1 = (reqs st ++ rs)%list /\
    (rs = [Get (api_url E pid fid)] \/
     exists u, rs = [Get (api_url E pid fid); GetStream u]).
Proof.
  intros Hd Hf.
  destruct (fetch_one_missing E f pid fid st d Hd Hf) as (st1 & Hrun & Hcases).
  destruct (resolved_url E st pid fid) as [u|].
  - destruct Hcases as [Hr Hcases].
    destruct (http_stream E _ u) as [|code chunks broken].
    + destruct Hcases as [Hd1 _]. exists st1, d, [Get (api_url E pid fid); GetStream u].
      repeat split; eauto.
    + destruct (http_error code || open_fails E f); destruct Hcases as [Hd1 _].
      * exists st1, d, [Get (api_url E pid fid); GetStream u]. repeat split; eauto.
      * exists st1, (<[f := List.concat chunks]> d), [Get (api_url E pid fid); GetStream u].
        repeat split; eauto.
  - destruct Hcases as (Hd1 & Hr & _).
    exists st1, d, [Get (api_url E pid fid)]. repeat split; eauto.
Qed.

Lemma fetch_all_app E pre : forall rest st,
  fst (fetch_all E pre st) = Val tt ->
  fetch_all E (pre ++ rest)%list st = fetch_all E rest (snd (fetch_all E pre st)).
Proof.
  induction pre as [|item pre IH]; intros rest st H; simpl in *; [done|].
  unfold bind in *. destruct (fetch_one E item st) as [[[]|e] st1]; [|done].
  by apply IH.
Qed.

(** With strings for keys the second loop never raises. *)
Lemma fetch_all_val E items : forall st d,
  mods_dir st = Some d ->
  forallb (fun item => is_str (fst item)) items = true ->
  fst (fetch_all E items st) = Val tt /\
  is_Some (mods_dir (snd (fetch_all E items st))).
Proof.
  induction items as [|[k [pid fid]] rest IH]; intros st d Hd Hstr; simpl.
  - rewrite Hd. eauto.
  - simpl in Hstr. apply andb_true_iff in Hstr as [Hk Hstr].
    destruct k as [| | |f| |]; try done.
    unfold bind. destruct (d !! f) as [c|] eqn:Hf.
    + rewrite (fetch_one_present E f pid fid st d c Hd Hf).
      by apply (IH _ d).
    + destruct (fetch_one_missing_summary E f pid fid st d Hd Hf)
        as (st1 & d1 & rs & -> & Hd1 & _).
      by apply (IH st1 d1).
Qed.






(** X6 — A key that is no string, as a numeric ["fileName"] gives, ends
    the second loop with a [TypeError] when its turn comes: the items
    before it are dealt with, the items after it are not looked at. *)
Theorem key_that_is_no_string_ends_the_loop E pre k v post st d :
  mods_dir st = Some d ->
  forallb (fun item => is_str (fst item)) pre = true ->
  is_str k = false ->
  fetch_all E (pre ++ (k, v) :: post)%list st =
  (Raise TypeError, snd (fetch_all E pre st)).
Proof.
  intros Hd Hpre Hk.
  destruct (fetch_all_val E pre st d Hd Hpre) as [Hval _].
  rewrite (fetch_all_app E pre _ st Hval). simpl. unfold bind, fetch_one. simpl.
  by destruct k.
Qed.

Lemma key_that_is_no_string_ends_the_loop_witness :
  fetch_all (serving_env false)
            ([(JStr "jei.jar", (JInt 238222, JInt 4712))] ++
             (JInt 7, (JInt 1, JInt 2)) ::
             [(JStr "100-200.jar", (JInt 100, JInt 200))])%list sample_state
  = (Raise TypeError,
     snd (fetch_all (serving_env false)
                    [(JStr "jei.jar", (JInt 238222, JInt 4712))] sample_state)).
Proof.
  apply (key_that_is_no_string_ends_the_loop (serving_env false)
           [(JStr "jei.jar", (JInt 238222, JInt 4712))] (JInt 7) (JInt 1, JInt 2)
           [(JStr "100-200.jar", (JInt 100, JInt 200))] sample_state sample_dir);
    reflexivity.
Defined.

Lemma prune_all_wanted E mods fs : forall st,
  forallb (fun f => dict_mem (JStr f) mods) fs = true ->
  prune E mods fs st = (Val tt, st).
Proof.
  induction fs as [|f rest IH]; intros st Hall; simpl; [done|].
  simpl in Hall. apply andb_true_iff in Hall as [Hf Hall].
  unfold bind, prune_one. rewrite Hf. simpl. by apply IH.
Qed.

Lemma fetch_all_present E items : forall st d,
  mods_dir st = Some d ->
  forallb (on_disk d) items = true ->
  fetch_all E items st =
  (Val tt, mkState (mods_dir st) (out st ++ map already_exists items)%list (reqs st)).
Proof.
  induction items as [|[k [pid fid]] rest IH]; intros st d Hd Hall; simpl.
  - rewrite app_nil_r. by destruct st.
  - simpl in Hall. apply andb_true_iff in Hall as [Hk Hall].
    unfold on_disk in Hk. simpl in Hk.
    destruct k as [| | |f| |]; try done.
    destruct (d !! f) as [c|] eqn:Hf; [|done].
    unfold bind. rewrite (fetch_one_present E f pid fid st d c Hd Hf).
    rewrite (IH _ d); [|exact Hd|exact Hall]. simpl. by rewrite <- app_assoc.
Qed.

(** X7 — On a folder that is in step with the mapping (every key is the
    name of a file in it, every name in it that ends in [".jar"] is a
    key) the two loops change nothing, whatever the environment: no file
    is removed or written, no request is made, and one message is printed
    for each key, that its mod exists. *)
Theorem synced_folder_is_left_alone E mods st d :
  mods_dir st = Some d ->
  forallb (on_disk d) mods = true ->
  forallb (fun f => dict_mem (JStr f) mods) (current_mod_files (elements (dom d))) = true ->
  sync E mods st =
  (Val tt, mkState (mods_dir st) (out st ++ map already_exists mods)%list (reqs st)).
Proof.
  intros Hd Hdisk Hwanted. unfold sync, bind at 1, listdir. rewrite Hd.
  unfold bind. rewrite (prune_all_wanted E mods _ st Hwanted).
  rewrite (fetch_all_present E mods st d Hd Hdisk). by rewrite Hd.
Qed.

Lemma synced_folder_is_left_alone_witness :
  sync (serving_env true) sample_mods synced_state =
  (Val tt,
   mkState (Some synced_dir)
           [AlreadyExists "100-200.jar"; AlreadyExists "jei.jar"] []).
Proof.
  apply (synced_folder_is_left_alone (serving_env true) sample_mods
           synced_state synced_dir);
    reflexivity.
Defined.



(** X9 — A download that is refused: when the resolution call yields an
    acceptable URL but the download request raises, or is answered with a
    status from 400 to 599, or the file cannot be opened, no file is
    created, not even an empty one; the failure is printed for this file
    and the two requests were made. *)
Theorem refused_download_creates_no_file E f pid fid st d u :
  mods_dir st = Some d -> d !! f = None ->
  resolved_url E st pid fid = Some u ->
  match http_stream E (reqs st ++ [Get (api_url E pid fid)])%list u with
  | StreamExc => True
  | StreamResp code _ _ => http_error code = true \/ open_fails E f = true
  end ->
  fetch_one E (JStr f, (pid, fid)) st =
  (Val tt,
   mkState (Some d)
           (out st ++ [Downloading f pid fid; ErrorDownloading f])%list
           (reqs st ++ [Get (api_url E pid fid); GetStream u])%list).
Proof.
  intros Hd Hf Hu Hs.
  destruct (fetch_one_missing E f pid fid st d Hd Hf) as (st1 & -> & Hcases).
  rewrite Hu in Hcases. destruct Hcases as [Hr Hcases].
  destruct (http_stream E _ u) as [|code chunks broken].
  - destruct Hcases as [Hm Ho]. destruct st1. simpl in *. by subst.
  - assert (Hbad : http_error code || open_fails E f = true).
    { destruct Hs as [-> | ->]; [done | apply orb_true_r]. }
    rewrite Hbad in Hcases.
    destruct Hcases as [Hm Ho]. destruct st1. simpl in *. by subst.
Qed.

(** Status 403 on the download. *)
Lemma refused_download_creates_no_file_witness :
  fetch_one (answering_env 403 false) (JStr "100-200.jar", (JInt 100, JInt 200))
            sample_state =
  (Val tt,
   mkState (Some sample_dir)
           ([] ++ [Downloading "100-200.jar" (JInt 100) (JInt 200);
                   ErrorDownloading "100-200.jar"])%list
           ([] ++ [Get (api_url (answering_env 403 false) (JInt 100) (JInt 200));
                   GetStream "https://cdn.example/mod.jar"])%list).
Proof.
  apply (refused_download_creates_no_file (answering_env 403 false) "100-200.jar"
           (JInt 100) (JInt 200) sample_state sample_dir
           "https://cdn.example/mod.jar");
    [reflexivity | reflexivity | reflexivity | left; reflexivity].
Defined.

(** * Further properties of the run *)

(** [main] on a manifest that has its list of entries, stage by stage. *)
Lemma main_stages E kv entries st :
  py_has_key kv "files" = true ->
  (forall s, py_iter (py_get kv "files") s = (Val entries, s)) ->
  main E (Loaded (JDict kv)) st =
  match build E entries [] (started st) with
  | (Val mods, s2) =>
      match sync E mods (mkState (mods_dir s2)
                                 (out s2 ++ [FoundEntries (List.length mods)])%list
                                 (reqs s2)) with
      | (Val _, s4) =>
          (Val RanToEnd, mkState (mods_dir s4) (out s4 ++ [Complete])%list (reqs s4))
      | (Raise e, s4) => (Raise e, s4)
      end
  | (Raise e, s2) => (Raise e, s2)
  end.
Proof.
  intros Hk Hiter. rewrite main_start.
  unfold bind at 1, py_contains, ret at 1. rewrite Hk. simpl.
  unfold bind at 1, py_getitem. rewrite Hk. unfold ret at 1.
  unfold bind at 1. rewrite Hiter. unfold bind at 1.
  destruct (build E entries [] (started st)) as [[mods|e] s2]; [|done].
  unfold bind at 1, print at 1. unfold bind at 1.
  by destruct (sync E mods _) as [[[]|e] s4].
Qed.

Lemma add_mod_raises E entry mods st :
  fst (add_mod E entry mods st) =
  match raised_by_entry E entry with
  | Some x => Raise x
  | None =>
      Val (if well_formed entry
           then dict_set (resolved_name E entry) (resolved_ids entry) mods
           else mods)
  end.
Proof.
  destruct entry as [| | | | |kv]; try done.
  unfold raised_by_entry.
  destruct (well_formed (JDict kv)) eqn:Hwf.
  - destruct (py_hashable (file_name_of E kv)) eqn:Hh; cbn [andb negb].
    + by rewrite add_mod_well_formed.
    + by rewrite add_mod_unhashable.
  - cbn [andb]. by rewrite add_mod_not_well_formed.
Qed.


Lemma build_raises_at E pre bad post x : forall (acc : dict) st,
  forallb (fun e => no_exn (raised_by_entry E e)) pre = true ->
  raised_by_entry E bad = Some x ->
  fst (build E (pre ++ bad :: post) acc st) = Raise x.
Proof.
  induction pre as [|entry pre IH]; intros acc st Hpre Hbad; simpl.
  - unfold bind. pose proof (add_mod_raises E bad acc st) as Ha.
    rewrite Hbad in Ha. by destruct (add_mod E bad acc st) as [[acc1|e] st1]; simplify_eq/=.
  - simpl in Hpre. apply andb_true_iff in Hpre as [He Hpre].
    unfold bind. pose proof (add_mod_raises E entry acc st) as Ha.
    destruct (raised_by_entry E entry); [done|].
    destruct (add_mod E entry acc st) as [[acc1|e] st1]; [|done].
    by apply IH.
Qed.





(** X11 — An entry the first loop cannot handle (one that is no JSON
    object, or one with both identifiers whose ["fileName"] is a list or
    an object) ends the run with an uncaught exception, [AttributeError]
    or [TypeError], before the folder is looked at: its contents are those
    of the start and no request was made, whatever the entries after it. *)
Theorem bad_entry_ends_the_run_early E kv pre bad post x st :
  py_has_key kv "files" = true ->
  py_get kv "files" = JList (pre ++ bad :: post) ->
  forallb (fun e => no_exn (raised_by_entry E e)) pre = true ->
  raised_by_entry E bad = Some x ->
  fst (main E (Loaded (JDict kv)) st) = Raise x /\
  mods_dir (snd (main E (Loaded (JDict kv)) st)) = Some (dir_of st) /\
  reqs (snd (main E (Loaded (JDict kv)) st)) = reqs st.
Proof.
  intros Hk Hfiles Hpre Hbad.
  rewrite (main_stages E kv (pre ++ bad :: post) st Hk) by (intros s; by rewrite Hfiles).
  pose proof (build_raises_at E pre bad post x [] (started st) Hpre Hbad) as Hr.
  destruct (build_frame E (pre ++ bad :: post) [] (started st)) as [Hm Hq].
  destruct (build E (pre ++ bad :: post) [] (started st)) as [[mods|e] s2];
    simpl in *; [done|].
  by injection Hr as ->.
Qed.

(** A bare number among the entries. *)
Lemma bad_entry_ends_the_run_early_witness :
  fst (main quiet_env
            (Loaded (JDict [("files", JList ([JDict sample_entry] ++ JInt 5 :: []))]))
            sample_state) = Raise AttributeError /\
  mods_dir (snd (main quiet_env
                      (Loaded (JDict [("files", JList ([JDict sample_entry] ++ JInt 5 :: []))]))
                      sample_state)) = Some (dir_of sample_state) /\
  reqs (snd (main quiet_env
                  (Loaded (JDict [("files", JList ([JDict sample_entry] ++ JInt 5 :: []))]))
                  sample_state)) = reqs sample_state.
Proof.
  apply (bad_entry_ends_the_run_early quiet_env
           [("files", JList ([JDict sample_entry] ++ JInt 5 :: []))]
           [JDict sample_entry] (JInt 5) [] AttributeError sample_state);
    reflexivity.
Defined.



(** X13 — A run whose manifest cannot be loaded, or is loaded and is no
    JSON object with a ["files"] field, never reaches the end of [main]
    and, however it stops (early return or uncaught exception), leaves
    the contents of the folder as they were and makes no request. *)
Theorem unusable_manifest_changes_nothing E load st :
  match load with
  | LoadFailed => True
  | Loaded (JDict kv) => py_has_key kv "files" = false
  | Loaded _ => True
  end ->
  fst (main E load st) <> Val RanToEnd /\
  dir_of (snd (main E load st)) = dir_of st /\
  reqs (snd (main E load st)) = reqs st.
Proof.
  intros H. split; [|by apply unusable_manifest_leaves_dir].
  intros Hend. destruct load as [|manifest].
  - rewrite main_start in Hend. discriminate.
  - destruct (main E (Loaded manifest) st) as [r s] eqn:Hmain. simpl in Hend. subst r.
    destruct (main_ran_to_end E manifest st s Hmain) as (kv & ? & ? & ? & ? & -> & Hk & _).
    congruence.
Qed.

(** A manifest without the list of entries, on the sample folder. *)
Lemma unusable_manifest_changes_nothing_witness :
  fst (main (serving_env false) (Loaded (JDict [("mods", JList [])])) sample_state)
  <> Val RanToEnd /\
  dir_of (snd (main (serving_env false) (Loaded (JDict [("mods", JList [])]))
                    sample_state)) = dir_of sample_state /\
  reqs (snd (main (serving_env false) (Loaded (JDict [("mods", JList [])]))
                  sample_state)) = reqs sample_state.
Proof.
  apply (unusable_manifest_changes_nothing (serving_env false)
           (Loaded (JDict [("mods", JList [])])) sample_state).
  reflexivity.
Defined.

(** * The names pruning looks at *)

Lemma length_lower s : String.length (lower s) = String.length s.
Proof. induction s as [|c s IH]; simpl; [done | by rewrite IH]. Qed.

Lemma lower_append p e : lower (p ++ e) = lower p ++ lower e.
Proof. induction p as [|c p IH]; simpl; [done | by rewrite IH]. Qed.

Lemma lower_substring s : forall k m,
  lower (substring k m s) = substring k m (lower s).
Proof.
  induction s as [|c s IH]; intros [|k] [|m]; simpl; rewrite ?IH; done.
Qed.

Lemma length_string_append p s :
  String.length (p ++ s) = (String.length p + String.length s)%nat.
Proof. induction p as [|c p IH]; simpl; [done | by rewrite IH]. Qed.

Lemma substring_whole s : substring 0 (String.length s) s = s.
Proof. induction s as [|c s IH]; simpl; [done | by rewrite IH]. Qed.

Lemma substring_after p s m :
  substring (String.length p) m (p ++ s) = substring 0 m s.
Proof. induction p as [|c p IH]; simpl; [done | exact IH]. Qed.

Lemma substring_split s : forall k,
  (k <= String.length s)%nat ->
  s = substring 0 k s ++ substring k (String.length s - k) s.
Proof.
  induction s as [|c s IH]; intros [|k] Hk; simpl in *; try done.
  - by rewrite substring_whole.
  - change (String c s =
            String c (substring 0 k s ++ substring k (String.length s - k) s)).
    f_equal. apply IH. lia.
Qed.

Lemma endswith_append p suffix : endswith (p ++ suffix) suffix = true.
Proof.
  unfold endswith. rewrite length_string_append.
  replace (String.length p + String.length suffix - String.length suffix)%nat
    with (String.length p) by lia.
  rewrite substring_after, substring_whole, String.eqb_refl, andb_true_r.
  apply Nat.leb_le. lia.
Qed.

(** X14 — The names pruning looks at are those that end in [".jar"]
    whatever the case of the letters: a name passes the test of line 52
    exactly when it is some text followed by four characters that read
    [".jar"] once in lower case.  The extension alone is such a name; a
    name that merely contains [".jar"] before its end is not. *)
Theorem mod_file_names f :
  is_mod_file f = true <-> exists p ext, f = p ++ ext /\ lower ext = ".jar".
Proof.
  unfold is_mod_file. split.
  - unfold endswith. rewrite length_lower. simpl String.length.
    intros [Hlen Hsub]%andb_true_iff.
    apply Nat.leb_le in Hlen. apply String.eqb_eq in Hsub.
    exists (substring 0 (String.length f - 4) f),
           (substring (String.length f - 4) 4 f).
    split.
    + rewrite (substring_split f (String.length f - 4)) at 1 by lia.
      do 2 f_equal. lia.
    + by rewrite lower_substring.
  - intros (p & ext & -> & Hext).
    rewrite lower_append, Hext. apply endswith_append.
Qed.

Lemma mod_file_names_witness :
  is_mod_file ("OptiFine_1.20" ++ ".JaR") = true.
Proof.
  apply (proj2 (mod_file_names ("OptiFine_1.20" ++ ".JaR"))).
  exists "OptiFine_1.20", ".JaR". split; reflexivity.
Defined.

(** * Pruning, whatever it is given *)


